(** * Brayton-cycle evaluator of the AD-HTC dashboard ([src/app.py])

    The only computational code of the repository is the function
    [calculate_gas_cycle] (lines 21-30 of [src/app.py]).  This file embeds it
    in Rocq and checks the statements the specification makes about it.

    Number model.  Python's [int] and [float] operands are both read as real
    numbers with exact arithmetic: rounding, overflow, infinities and NaN of
    binary64 are outside the model (the specification states its formulas
    "modulo floating-point").  What is kept of Python is everything that
    decides whether a call returns or raises:
    - [/] raises [ZeroDivisionError] on a zero divisor;
    - [**] on floats follows the case analysis of CPython's [float_pow]:
      [x ** 0] is [1], [0 ** w] raises for negative [w] and is [0] otherwise,
      a negative base with a non-integral exponent yields a *complex* number,
      a negative base with an integral exponent yields a signed real power;
    - arithmetic between a float and a complex promotes to complex;
    - [>] between a complex number and a number raises [TypeError].
    An exception carries the line of [src/app.py] it was raised on.

    Scope.  Exact arithmetic idealises the program.  The theorems are stated
    where the binary64 program has room to agree with them: what hinges on
    rounding (a strict inequality at a pressure ratio next to one, an
    algebraic identity between outputs, the overflow of a power) is not
    stated, and a numeric bound in a hypothesis, such as [k <= 1e15], marks
    where the exact exponent and the rounded one part.  [PFloat] says that a
    value is a real number, not which of Python's types [int] and [float]
    holds it: the literal [0] of line 29 is [PFloat 0]. *)

From Stdlib Require Import Reals Lra Lia ZArith Bool List.
Import ListNotations.

Open Scope R_scope.

(** ** Python values, exceptions and operators *)

Module Py.

(** A computation either yields a value or raises. *)
Inductive result (E A : Type) : Type :=
| Ok (a : A)
| Err (e : E).

Arguments Ok {E A} a.
Arguments Err {E A} e.

Definition bind {E A B : Type} (c : result E A) (k : A -> result E B)
  : result E B :=
  match c with
  | Ok a => k a
  | Err e => Err e
  end.

(** The messages CPython attaches to the [ZeroDivisionError]s met here. *)
Inductive zde_reason : Type :=
| division_by_zero
| zero_to_negative_power.

Inductive exn : Type :=
| ZeroDivisionError (why : zde_reason)
| TypeError.

(** An exception that left a statement: its kind and the source line. *)
Record raised : Type := Raised { exc : exn; lineno : nat }.

Definition at_line {A : Type} (n : nat) (c : result exn A)
  : result raised A :=
  match c with
  | Ok a => Ok a
  | Err e => Err (Raised e n)
  end.

Definition raises {E A : Type} (c : result E A) : Prop :=
  exists e, c = Err e.

Definition returns {E A : Type} (c : result E A) : Prop :=
  exists a, c = Ok a.

(** Numbers that occur at run time: a float, or a complex number once a
    negative base has been raised to a fractional power. *)
Inductive pyval : Type :=
| PFloat (x : R)
| PComplex (re im : R).

(** Whether a value is of Python's type [complex]. *)
Definition is_complex (v : pyval) : Prop :=
  match v with
  | PFloat _ => False
  | PComplex _ _ => True
  end.

Definition to_complex (v : pyval) : R * R :=
  match v with
  | PFloat x => (x, 0)
  | PComplex re im => (re, im)
  end.

Definition py_sub (a b : pyval) : pyval :=
  match a, b with
  | PFloat x, PFloat y => PFloat (x - y)
  | _, _ =>
      let '(ar, ai) := to_complex a in
      let '(br, bi) := to_complex b in
      PComplex (ar - br) (ai - bi)
  end.

Definition py_mul (a b : pyval) : pyval :=
  match a, b with
  | PFloat x, PFloat y => PFloat (x * y)
  | _, _ =>
      let '(ar, ai) := to_complex a in
      let '(br, bi) := to_complex b in
      PComplex (ar * br - ai * bi) (ar * bi + ai * br)
  end.

(** Comparisons of floats, as booleans. *)
Definition float_eq (x y : R) : bool :=
  if Req_dec_T x y then true else false.

Definition float_lt (x y : R) : bool :=
  if Rlt_dec x y then true else false.

(** [float / float]; the divisor is tested before anything is computed. *)
Definition float_truediv (x y : R) : result exn R :=
  if float_eq y 0 then Err (ZeroDivisionError division_by_zero)
  else Ok (x / y).

Definition py_truediv (a b : pyval) : result exn pyval :=
  match a, b with
  | PFloat x, PFloat y =>
      bind (float_truediv x y) (fun q => Ok (PFloat q))
  | _, _ =>
      let '(ar, ai) := to_complex a in
      let '(br, bi) := to_complex b in
      if float_eq br 0 && float_eq bi 0
      then Err (ZeroDivisionError division_by_zero)
      else
        let d := br * br + bi * bi in
        Ok (PComplex ((ar * br + ai * bi) / d) ((ai * br - ar * bi) / d))
  end.

(** [a > b]: complex numbers are not ordered. *)
Definition py_gt (a b : pyval) : result exn bool :=
  match a, b with
  | PFloat x, PFloat y => Ok (float_lt y x)
  | _, _ => Err TypeError
  end.

(** [floor] of a float, and the test CPython calls [DOUBLE_IS_ODD_INTEGER]. *)
Definition floor (x : R) : R := IZR (Zfloor x).

Definition is_odd_integer (x : R) : bool :=
  float_eq x (floor x) && Z.odd (Zfloor x).

(** Complex power of a nonzero real base [iv] by a real exponent [iw], as
    [_Py_c_pow] computes it from the polar form: modulus [|iv| ** iw] and
    argument [atan2(0, iv) * iw], where [atan2(0, iv)] is [pi] for a
    negative [iv] and [0] for a positive one. *)
Definition complex_pow (iv iw : R) : pyval :=
  let vabs := Rabs iv in
  let len := Rpower vabs iw in
  let at_ := if float_lt iv 0 then PI else 0 in
  let phase := at_ * iw in
  PComplex (len * cos phase) (len * sin phase).

(** [iv ** iw] on floats, in the order of the cases of [float_pow]. *)
Definition float_pow (iv iw : R) : result exn pyval :=
  if float_eq iw 0 then Ok (PFloat 1)
  else if float_eq iv 0 then
    if float_lt iw 0 then Err (ZeroDivisionError zero_to_negative_power)
    else Ok (PFloat 0)
  else if float_lt iv 0 && negb (float_eq iw (floor iw))
  then Ok (complex_pow iv iw)
  else
    let negate_result := float_lt iv 0 && is_odd_integer iw in
    let iv' := if float_lt iv 0 then - iv else iv in
    let ix := if float_eq iv' 1 then 1 else Rpower iv' iw in
    Ok (PFloat (if negate_result then - ix else ix)).

End Py.

Import Py.

Notation "x <- c ;; k" := (bind c (fun x => k))
  (at level 61, c at next level, right associativity).

(** ** The source function *)

Module App.

(** Default arguments of [calculate_gas_cycle]. *)
Definition default_k : R := 1.4.
Definition default_cp : R := 1.005.

(** Right-hand side of line 23: [t_amb * (p_ratio**((k-1)/k))]. *)
Definition t2_rhs (p_ratio t_amb k : R) : result exn pyval :=
  e <- float_truediv (k - 1) k ;;
  pw <- float_pow p_ratio e ;;
  Ok (py_mul (PFloat t_amb) pw).

(** Right-hand side of line 25: [t_max / (p_ratio**((k-1)/k))]. *)
Definition t4_rhs (p_ratio t_max k : R) : result exn pyval :=
  e <- float_truediv (k - 1) k ;;
  pw <- float_pow p_ratio e ;;
  py_truediv (PFloat t_max) pw.

(** Right-hand side of line 29:
    [(w_net / q_in) * 100 if q_in > 0 else 0]; the condition is evaluated
    first and the division only when it holds. *)
Definition eff_rhs (w_net q_in : pyval) : result exn pyval :=
  b <- py_gt q_in (PFloat 0) ;;
  if b : bool
  then q <- py_truediv w_net q_in ;; Ok (py_mul q (PFloat 100))
  else Ok (PFloat 0).

(** The local variables of [calculate_gas_cycle] when line 30 is reached. *)
Record frame : Type := Frame {
  t2 : pyval;
  w_c : pyval;
  t4 : pyval;
  w_t : pyval;
  w_net : pyval;
  q_in : pyval;
  eff : pyval
}.

(** Lines 23-29, statement by statement. *)
Definition gas_cycle_body (p_ratio t_max t_amb k cp : R)
  : result raised frame :=
  t2 <- at_line 23 (t2_rhs p_ratio t_amb k) ;;
  let w_c := py_mul (PFloat cp) (py_sub t2 (PFloat t_amb)) in
  t4 <- at_line 25 (t4_rhs p_ratio t_max k) ;;
  let w_t := py_mul (PFloat cp) (py_sub (PFloat t_max) t4) in
  let w_net := py_sub w_t w_c in
  let q_in := py_mul (PFloat cp) (py_sub (PFloat t_max) t2) in
  eff <- at_line 29 (eff_rhs w_net q_in) ;;
  Ok (Frame t2 w_c t4 w_t w_net q_in eff).

(** [calculate_gas_cycle]: the body, then [return w_net, eff, t2, t4]. *)
Definition calculate_gas_cycle (p_ratio t_max t_amb k cp : R)
  : result raised (pyval * pyval * pyval * pyval) :=
  f <- gas_cycle_body p_ratio t_max t_amb k cp ;;
  Ok (w_net f, eff f, t2 f, t4 f).

End App.

Import App.

(** ** The caller: sidebar controls and the curves of the analysis tab *)

Module Np.

(** [np.linspace(start, stop, num)] with the default [endpoint=True]:
    [arange(0, num)] scaled by [step = (stop - start) / (num - 1)], shifted
    by [start], and the last entry overwritten with [stop] when there is
    more than one.  (NumPy's separate branch for a zero step computes the
    same real numbers.) *)
Definition linspace (start stop : R) (num : nat) : list R :=
  let div := (num - 1)%nat in
  let delta := stop - start in
  let y := map INR (seq 0 num) in
  let y :=
    if (0 <? div)%nat
    then map (fun v => v * (delta / INR div)) y
    else map (fun v => v * delta) y in
  let y := map (fun v => v + start) y in
  if (1 <? num)%nat then removelast y ++ [stop] else y.

End Np.

Module Dashboard.

(** The values of the five sidebar widgets of [main] (lines 41-47). *)
Record controls : Type := Controls {
  p_ratio : R;
  t_max : R;
  t_amb : R;
  p_steam : R;
  t_steam : R
}.

(** [st.slider(label, min_value, max_value, value)] yields a value between
    its two bounds. *)
Definition slider (min_value max_value v : R) : Prop :=
  min_value <= v <= max_value.

(** What the widgets allow: the four sliders are bounded,
    [st.number_input("Ambient Temp (K)", value=298)] has no bound. *)
Definition in_range (c : controls) : Prop :=
  slider 5.0 20.0 (p_ratio c) /\
  slider 1000 1600 (t_max c) /\
  slider 10 100 (p_steam c) /\
  slider 200 500 (t_steam c).

(** The widgets' initial values. *)
Definition initial : controls := Controls 12.0 1350 298 50 350.

(** Line 74: [calculate_gas_cycle(p_ratio, t_max, t_amb)], with the default
    [k] and [cp]. *)
Definition tab2_cycle (c : controls)
  : result raised (pyval * pyval * pyval * pyval) :=
  calculate_gas_cycle (p_ratio c) (t_max c) (t_amb c) default_k default_cp.

(** Lines 86-87: the enthalpy array of the h-s diagram,
    [2500 + 150*(s-5.5) - 40*(s-5.5)**2 + (t_steam * 0.2)] taken
    elementwise over [s = np.linspace(5.5, 8.0, 100)]. *)
Definition hs_enthalpy (t_steam s : R) : R :=
  2500 + 150 * (s - 5.5) - 40 * (s - 5.5) ^ 2 + t_steam * 0.2.

Definition hs_curve (t_steam : R) : list R :=
  map (hs_enthalpy t_steam) (Np.linspace 5.5 8.0 100).

(** Lines 97-98: the temperature array of the T-H chart,
    [t2 + (t_max - t2) * (h_flow/100)] taken elementwise over
    [h_flow = np.linspace(0, 100, 100)], for a float [t2]. *)
Definition th_temperature (t2 t_max h_flow : R) : R :=
  t2 + (t_max - t2) * (h_flow / 100).

Definition th_curve (t2 t_max : R) : list R :=
  map (th_temperature t2 t_max) (Np.linspace 0 100 100).

End Dashboard.

(** ** The algorithm as the specification words it *)

Module Spec.

(** Steps 1-9 of section 4.1, with the specification's names: the exponent
    is computed once (step 1) and used by steps 2 and 4. *)
Definition evaluate (pressure_ratio turbine_inlet_temp ambient_temp k cp : R)
  : result exn (pyval * pyval * pyval * pyval) :=
  exponent <- float_truediv (k - 1) k ;;
  pw2 <- float_pow pressure_ratio exponent ;;
  let t2 := py_mul (PFloat ambient_temp) pw2 in
  let compressor_work := py_mul (PFloat cp) (py_sub t2 (PFloat ambient_temp)) in
  pw4 <- float_pow pressure_ratio exponent ;;
  t4 <- py_truediv (PFloat turbine_inlet_temp) pw4 ;;
  let turbine_work :=
    py_mul (PFloat cp) (py_sub (PFloat turbine_inlet_temp) t4) in
  let net_work := py_sub turbine_work compressor_work in
  let heat_in := py_mul (PFloat cp) (py_sub (PFloat turbine_inlet_temp) t2) in
  positive <- py_gt heat_in (PFloat 0) ;;
  efficiency_percent <-
    (if positive : bool
     then q <- py_truediv net_work heat_in ;; Ok (py_mul q (PFloat 100))
     else Ok (PFloat 0)) ;;
  Ok (net_work, efficiency_percent, t2, t4).

(** The isentropic temperature ratio [pressure_ratio^((k-1)/k)] on the
    domain the data model allows (positive pressure ratio). *)
Definition temperature_ratio (pressure_ratio k : R) : R :=
  Rpower pressure_ratio ((k - 1) / k).

(** Section 8, "Concrete scenario 1": the values the specification expects
    at [pressure_ratio = 12], [turbine_inlet_temp = 1350],
    [ambient_temp = 298] and the default [k] and [cp].  "Approximately" is
    read with a tolerance of 5 K, far wider than the one decimal quoted, and
    "tens of kJ/kg" as a value from 10 up to 100. *)
Definition approximately (x y tol : R) : Prop := Rabs (x - y) <= tol.

Definition scenario_1_expected (out : pyval * pyval * pyval * pyval) : Prop :=
  exists net_work efficiency t2 t4 : R,
    out = (PFloat net_work, PFloat efficiency, PFloat t2, PFloat t4) /\
    approximately t2 597.0 5 /\
    approximately t4 673.9 5 /\
    10 <= net_work < 100 /\
    0 < efficiency < 60.

End Spec.

(** ** Comparisons and the primitive operators *)

Lemma float_eq_true (x y : R) : x = y -> float_eq x y = true.
Proof.
  intros H. unfold float_eq. destruct (Req_dec_T x y); [reflexivity | tauto].
Qed.

Lemma float_eq_false (x y : R) : x <> y -> float_eq x y = false.
Proof.
  intros H. unfold float_eq. destruct (Req_dec_T x y); [tauto | reflexivity].
Qed.

Lemma float_lt_true (x y : R) : x < y -> float_lt x y = true.
Proof.
  intros H. unfold float_lt. destruct (Rlt_dec x y); [reflexivity | tauto].
Qed.

Lemma float_lt_false (x y : R) : y <= x -> float_lt x y = false.
Proof.
  intros H. unfold float_lt. destruct (Rlt_dec x y); [lra | reflexivity].
Qed.

Lemma float_truediv_ok (x y : R) : y <> 0 -> float_truediv x y = Ok (x / y).
Proof.
  intros H. unfold float_truediv. now rewrite (float_eq_false y 0 H).
Qed.

Lemma float_truediv_zero (x : R) :
  float_truediv x 0 = Err (ZeroDivisionError division_by_zero).
Proof.
  unfold float_truediv. now rewrite float_eq_true.
Qed.

(** [x ** 0] is [1] for every base, zero and negative ones included. *)
Lemma float_pow_zero_exponent (iv : R) : float_pow iv 0 = Ok (PFloat 1).
Proof.
  unfold float_pow. now rewrite float_eq_true.
Qed.

(** [1 ** w] is [1]. *)
Lemma float_pow_one_base (iw : R) : float_pow 1 iw = Ok (PFloat 1).
Proof.
  unfold float_pow.
  destruct (float_eq iw 0); [reflexivity |].
  rewrite (float_eq_false 1 0) by lra.
  rewrite (float_lt_false 1 0) by lra. cbn.
  now rewrite float_eq_true.
Qed.

(** [0 ** w] is [0] for a positive exponent. *)
Lemma float_pow_zero_base (iw : R) : 0 < iw -> float_pow 0 iw = Ok (PFloat 0).
Proof.
  intros H. unfold float_pow.
  rewrite (float_eq_false iw 0) by lra.
  rewrite float_eq_true by reflexivity.
  now rewrite float_lt_false by lra.
Qed.

(** On a positive base [**] is the real power function. *)
Lemma float_pow_pos (iv iw : R) :
  0 < iv -> float_pow iv iw = Ok (PFloat (Rpower iv iw)).
Proof.
  intros H. unfold float_pow.
  destruct (Req_dec_T iw 0) as [-> | Hw].
  - rewrite float_eq_true by reflexivity. now rewrite Rpower_O.
  - rewrite (float_eq_false iw 0 Hw).
    rewrite (float_eq_false iv 0) by lra.
    rewrite (float_lt_false iv 0) by lra. cbn.
    destruct (Req_dec_T iv 1) as [-> | H1].
    + rewrite float_eq_true by reflexivity.
      unfold Rpower. rewrite ln_1, Rmult_0_r, exp_0. reflexivity.
    + now rewrite (float_eq_false iv 1 H1).
Qed.

(** A negative base with a non-integral exponent gives a complex number. *)
Lemma float_pow_neg_fractional (iv iw : R) :
  iv < 0 -> iw <> floor iw ->
  float_pow iv iw = Ok (complex_pow iv iw).
Proof.
  intros Hv Hw. unfold float_pow.
  assert (iw <> 0) as H0.
  { intros ->. apply Hw. unfold floor.
    change 0 with (IZR 0) at 2. now rewrite ZfloorZ. }
  rewrite (float_eq_false iw 0 H0).
  rewrite (float_eq_false iv 0) by lra.
  rewrite (float_lt_true iv 0 Hv).
  now rewrite (float_eq_false iw (floor iw) Hw).
Qed.

(** ** The body on a positive pressure ratio *)

Section PositivePressureRatio.

Variables p_ratio t_max t_amb k cp : R.
Hypothesis p_ratio_pos : 0 < p_ratio.
Hypothesis k_nonzero : k <> 0.

Lemma temperature_ratio_pos : 0 < Spec.temperature_ratio p_ratio k.
Proof. apply exp_pos. Qed.

Lemma t2_rhs_pos :
  t2_rhs p_ratio t_amb k =
  Ok (PFloat (t_amb * Spec.temperature_ratio p_ratio k)).
Proof.
  unfold t2_rhs. rewrite float_truediv_ok by assumption. cbn.
  rewrite float_pow_pos by assumption. reflexivity.
Qed.

Lemma t4_rhs_pos :
  t4_rhs p_ratio t_max k =
  Ok (PFloat (t_max / Spec.temperature_ratio p_ratio k)).
Proof.
  unfold t4_rhs. rewrite float_truediv_ok by assumption. cbn.
  rewrite float_pow_pos by assumption. cbn.
  rewrite float_truediv_ok; [reflexivity |].
  apply Rgt_not_eq, temperature_ratio_pos.
Qed.

(** Every local is a float, and [eff] is decided by the sign of [q_in]. *)
Lemma gas_cycle_body_pos :
  let ratio := Spec.temperature_ratio p_ratio k in
  let v_t2 := t_amb * ratio in
  let v_w_c := cp * (v_t2 - t_amb) in
  let v_t4 := t_max / ratio in
  let v_w_t := cp * (t_max - v_t4) in
  let v_w_net := v_w_t - v_w_c in
  let v_q_in := cp * (t_max - v_t2) in
  let v_eff := if float_lt 0 v_q_in then v_w_net / v_q_in * 100 else 0 in
  gas_cycle_body p_ratio t_max t_amb k cp =
  Ok (Frame (PFloat v_t2) (PFloat v_w_c) (PFloat v_t4) (PFloat v_w_t)
        (PFloat v_w_net) (PFloat v_q_in) (PFloat v_eff)).
Proof.
  intros. unfold gas_cycle_body.
  rewrite t2_rhs_pos, t4_rhs_pos. cbn.
  fold ratio. fold v_t2 v_t4 v_w_c v_w_t v_w_net v_q_in.
  unfold eff_rhs. cbn.
  destruct (Rlt_dec 0 v_q_in) as [Hq | Hq].
  - subst v_eff. rewrite (float_lt_true 0 v_q_in Hq). cbn.
    rewrite float_truediv_ok by (apply Rgt_not_eq; exact Hq). reflexivity.
  - subst v_eff. rewrite float_lt_false by lra. reflexivity.
Qed.

Lemma calculate_gas_cycle_pos :
  let ratio := Spec.temperature_ratio p_ratio k in
  let v_t2 := t_amb * ratio in
  let v_t4 := t_max / ratio in
  let v_w_net := cp * (t_max - v_t4) - cp * (v_t2 - t_amb) in
  let v_q_in := cp * (t_max - v_t2) in
  let v_eff := if float_lt 0 v_q_in then v_w_net / v_q_in * 100 else 0 in
  calculate_gas_cycle p_ratio t_max t_amb k cp =
  Ok (PFloat v_w_net, PFloat v_eff, PFloat v_t2, PFloat v_t4).
Proof.
  intros. unfold calculate_gas_cycle.
  rewrite gas_cycle_body_pos. reflexivity.
Qed.

End PositivePressureRatio.

(** ** Properties on the physical domain *)

(** C6.  At [pressure_ratio = 1] the power is [1]: [t2] is the ambient
    temperature, [t4] the turbine inlet temperature, the compressor work is
    zero and the net work is the turbine work.  This needs [k <> 0] only, so
    it holds in particular for [k > 1] and positive temperatures. *)
Theorem unit_pressure_ratio (t_max t_amb k cp : R) :
  k <> 0 ->
  exists f : frame,
    gas_cycle_body 1 t_max t_amb k cp = Ok f /\
    calculate_gas_cycle 1 t_max t_amb k cp = Ok (w_net f, eff f, t2 f, t4 f) /\
    t2 f = PFloat t_amb /\
    t4 f = PFloat t_max /\
    w_c f = PFloat 0 /\
    w_net f = w_t f.
Proof.
  intros Hk.
  assert (Spec.temperature_ratio 1 k = 1) as Hr.
  { unfold Spec.temperature_ratio, Rpower.
    rewrite ln_1, Rmult_0_r. apply exp_0. }
  unfold calculate_gas_cycle.
  rewrite gas_cycle_body_pos by lra. rewrite Hr.
  eexists. split; [reflexivity |]. cbn.
  repeat split; f_equal; field.
Qed.

Lemma unit_pressure_ratio_witness :
  exists f : frame,
    gas_cycle_body 1 1350 298 default_k default_cp = Ok f /\
    calculate_gas_cycle 1 1350 298 default_k default_cp =
    Ok (w_net f, eff f, t2 f, t4 f) /\
    t2 f = PFloat 298 /\
    t4 f = PFloat 1350 /\
    w_c f = PFloat 0 /\
    w_net f = w_t f.
Proof.
  apply (unit_pressure_ratio 1350 298 default_k default_cp).
  unfold default_k. lra.
Defined.

(** ** Scenario 1: default gas constants, pressure ratio 12 *)

(** With [k = 1.4] the exponent is [2/7], so the seventh power of the
    temperature ratio at pressure ratio [12] is [144]. *)
Lemma temperature_ratio_12_pow7 :
  Spec.temperature_ratio 12 default_k ^ 7 = 144.
Proof.
  unfold Spec.temperature_ratio, default_k.
  rewrite <- Rpower_pow by apply exp_pos.
  rewrite Rpower_mult.
  replace ((1.4 - 1) / 1.4 * INR 7) with (INR 2) by (simpl; lra).
  rewrite Rpower_pow by lra. lra.
Qed.

Lemma temperature_ratio_12_bounds :
  2.03393 < Spec.temperature_ratio 12 default_k < 2.03394.
Proof.
  pose proof temperature_ratio_12_pow7 as H7.
  assert (0 < Spec.temperature_ratio 12 default_k) as Hpos by apply exp_pos.
  set (r := Spec.temperature_ratio 12 default_k) in *.
  split.
  - destruct (Rlt_dec 2.03393 r) as [H | H]; [exact H | exfalso].
    assert (r ^ 7 <= 2.03393 ^ 7) by (apply pow_incr; lra). lra.
  - destruct (Rlt_dec r 2.03394) as [H | H]; [exact H | exfalso].
    assert (2.03394 ^ 7 <= r ^ 7) by (apply pow_incr; lra). lra.
Qed.

(** The four outputs of scenario 1, bracketed. *)
Lemma scenario_1_outputs :
  exists v_w_net v_eff v_t2 v_t4 : R,
    calculate_gas_cycle 12 1350 298 default_k default_cp =
    Ok (PFloat v_w_net, PFloat v_eff, PFloat v_t2, PFloat v_t4) /\
    606.05 < v_t2 < 606.15 /\
    663.65 < v_t4 < 663.75 /\
    380.0 < v_w_net < 380.1 /\
    50.8 < v_eff < 50.9.
Proof.
  pose proof temperature_ratio_12_bounds as [Hlo Hhi].
  rewrite calculate_gas_cycle_pos by (unfold default_k; lra).
  set (r := Spec.temperature_ratio 12 default_k) in *.
  assert (663.73 < 1350 / r < 663.75) as [H4lo H4hi].
  { split; apply Rmult_lt_reg_r with (r := r); try lra;
      unfold Rdiv; rewrite Rmult_assoc, Rinv_l by lra; lra. }
  set (v4 := 1350 / r) in *.
  unfold default_cp.
  set (w := 1.005 * (1350 - v4) - 1.005 * (298 * r - 298)).
  set (q := 1.005 * (1350 - 298 * r)).
  assert (0 < q) as Hq by (unfold q; lra).
  rewrite (float_lt_true _ _ Hq).
  do 4 eexists. split; [reflexivity |].
  assert (w / q * 100 * q = w * 100) as E by (field; lra).
  repeat split; try (unfold w; lra);
    apply Rmult_lt_reg_r with (r := q); try exact Hq;
    rewrite ?E; unfold w, q; lra.
Qed.

(** C7, as amended.  At [pressure_ratio = 12], [turbine_inlet_temp = 1350],
    [ambient_temp = 298], [k = 1.4], [cp = 1.005] the call returns
    [t2] within 0.05 K of 606.1 K, [t4] within 0.05 K of 663.7 K, a strictly
    positive net work between 380.0 and 380.1 kJ/kg, and an efficiency
    strictly between 0 and 60 percent (between 50.8 and 50.9). *)
Theorem scenario_1_values :
  exists v_w_net v_eff v_t2 v_t4 : R,
    calculate_gas_cycle 12 1350 298 default_k default_cp =
    Ok (PFloat v_w_net, PFloat v_eff, PFloat v_t2, PFloat v_t4) /\
    Spec.approximately v_t2 606.1 0.05 /\
    Spec.approximately v_t4 663.7 0.05 /\
    380.0 < v_w_net < 380.1 /\
    (50.8 < v_eff < 50.9 /\ 0 < v_eff < 60).
Proof.
  destruct scenario_1_outputs
    as (w & e & v2 & v4 & Hcall & H2 & H4 & Hw & He).
  exists w, e, v2, v4. split; [exact Hcall |].
  unfold Spec.approximately.
  repeat split; try lra; apply Rabs_le; lra.
Qed.

(** C7, as the specification has it: the expected values of scenario 1
    ([t2] near 597.0 K, [t4] near 673.9 K, net work in the tens of kJ/kg)
    are not what the call returns, even with a tolerance of 5 K. *)
Lemma scenario_1_expected_fails :
  ~ exists out,
      calculate_gas_cycle 12 1350 298 default_k default_cp = Ok out /\
      Spec.scenario_1_expected out.
Proof.
  intros (out & Hout & w' & e' & v2' & v4' & -> & H2' & _).
  destruct scenario_1_outputs
    as (w & e & v2 & v4 & Hcall & H2 & _).
  rewrite Hcall in Hout. injection Hout as _ _ E2 _. subst v2'.
  unfold Spec.approximately in H2'.
  pose proof (Rle_abs (v2 - 597.0)). lra.
Qed.

(** ** Inputs outside the physical domain *)

(** C5, as amended.  With [k = 1] the exponent is [(1 - 1) / 1 = 0]: the
    divisor is [k] itself, no zero denominator occurs, the power is [1] for
    every pressure ratio, and the call returns
    [(0, 0, ambient_temp, turbine_inlet_temp)] without raising. *)
Theorem unit_heat_ratio_returns (p_ratio t_max t_amb cp : R) :
  float_truediv (1 - 1) 1 = Ok 0 /\
  calculate_gas_cycle p_ratio t_max t_amb 1 cp =
  Ok (PFloat 0, PFloat 0, PFloat t_amb, PFloat t_max).
Proof.
  assert (float_truediv (1 - 1) 1 = Ok 0) as He.
  { rewrite float_truediv_ok by lra. f_equal. lra. }
  split; [exact He |].
  unfold calculate_gas_cycle, gas_cycle_body, t2_rhs, t4_rhs.
  rewrite He. cbn.
  rewrite float_pow_zero_exponent. cbn.
  rewrite float_truediv_ok by lra. cbn.
  unfold eff_rhs. cbn.
  destruct (Rlt_dec 0 (cp * (t_max - t_amb * 1))) as [Hq | Hq].
  - rewrite (float_lt_true _ _ Hq). cbn.
    rewrite float_truediv_ok by (apply Rgt_not_eq; exact Hq). cbn.
    assert (cp <> 0) as Hcp
      by (intros ->; rewrite Rmult_0_l in Hq; lra).
    assert (t_max - t_amb * 1 <> 0) as Hd
      by (intros E; rewrite E, Rmult_0_r in Hq; lra).
    repeat f_equal; field.
    split; [intros E; apply Hd; lra | exact Hcp].
  - rewrite float_lt_false by lra. cbn.
    repeat f_equal; field.
Qed.

(** C5, as the specification has it: a call with [k = 1] and a positive
    pressure ratio and temperatures would raise.  It does not. *)
Lemma unit_heat_ratio_does_not_raise :
  ~ raises (calculate_gas_cycle 12 1350 298 1 default_cp).
Proof.
  intros [e He].
  assert (float_truediv (1 - 1) 1 = Ok 0) as H0.
  { rewrite float_truediv_ok by lra. f_equal. lra. }
  revert He.
  unfold calculate_gas_cycle, gas_cycle_body, t2_rhs, t4_rhs.
  rewrite H0. cbn.
  rewrite float_pow_zero_exponent. cbn.
  rewrite float_truediv_ok by lra. cbn.
  unfold eff_rhs. cbn.
  rewrite float_lt_true by (unfold default_cp; lra). cbn.
  rewrite float_truediv_ok by (unfold default_cp; lra). cbn.
  discriminate.
Qed.

(** C10.  With [pressure_ratio = 0] and [k > 1] line 23 succeeds with
    [t2 = 0], and the division of line 25 by [0 ** ((k-1)/k) = 0] raises
    [ZeroDivisionError]: the call raises on line 25 and returns nothing. *)
Theorem zero_pressure_ratio_raises (t_max t_amb k cp : R) :
  1 < k ->
  t2_rhs 0 t_amb k = Ok (PFloat 0) /\
  t4_rhs 0 t_max k = Err (ZeroDivisionError division_by_zero) /\
  calculate_gas_cycle 0 t_max t_amb k cp =
  Err (Raised (ZeroDivisionError division_by_zero) 25).
Proof.
  intros Hk.
  assert (0 < (k - 1) / k) as He by (apply Rdiv_lt_0_compat; lra).
  assert (t2_rhs 0 t_amb k = Ok (PFloat (t_amb * 0))) as H2.
  { unfold t2_rhs. rewrite float_truediv_ok by lra. cbn.
    rewrite float_pow_zero_base by exact He. reflexivity. }
  assert (t4_rhs 0 t_max k = Err (ZeroDivisionError division_by_zero)) as H4.
  { unfold t4_rhs. rewrite float_truediv_ok by lra. cbn.
    rewrite float_pow_zero_base by exact He. cbn.
    now rewrite float_truediv_zero. }
  repeat split.
  - rewrite H2. now rewrite Rmult_0_r.
  - exact H4.
  - unfold calculate_gas_cycle, gas_cycle_body. rewrite H2, H4. reflexivity.
Qed.

Lemma zero_pressure_ratio_raises_witness :
  t2_rhs 0 298 default_k = Ok (PFloat 0) /\
  t4_rhs 0 1350 default_k = Err (ZeroDivisionError division_by_zero) /\
  calculate_gas_cycle 0 1350 298 default_k default_cp =
  Err (Raised (ZeroDivisionError division_by_zero) 25).
Proof.
  apply (zero_pressure_ratio_raises 1350 298 default_k default_cp).
  unfold default_k. lra.
Defined.

(** A fractional power of a negative base is a nonzero complex number. *)
Lemma complex_pow_nonzero (iv iw : R) :
  exists re im : R,
    complex_pow iv iw = PComplex re im /\ ~ (re = 0 /\ im = 0).
Proof.
  unfold complex_pow.
  set (phase := (if float_lt iv 0 then PI else 0) * iw).
  set (len := Rpower (Rabs iv) iw).
  exists (len * cos phase), (len * sin phase).
  split; [reflexivity |].
  assert (0 < len) as Hlen by apply exp_pos.
  intros [Hc Hs].
  apply Rmult_integral in Hc. apply Rmult_integral in Hs.
  destruct Hc as [Hc | Hc]; [lra |].
  destruct Hs as [Hs | Hs]; [lra |].
  pose proof (sin2_cos2 phase) as H.
  rewrite Hc, Hs in H. unfold Rsqr in H. lra.
Qed.

(** An exponent strictly between 0 and 1 is not an integer. *)
Lemma fractional_exponent (iw : R) : 0 < iw < 1 -> iw <> floor iw.
Proof.
  intros [H0 H1]. unfold floor.
  rewrite (Zfloor_eq 0 iw) by (simpl; lra). lra.
Qed.

(** Once the power is complex every later value is complex, and the
    comparison of line 29 is the first operation that rejects it. *)
Lemma complex_power_raises (p_ratio t_max t_amb k cp e re im : R) :
  float_truediv (k - 1) k = Ok e ->
  float_pow p_ratio e = Ok (PComplex re im) ->
  ~ (re = 0 /\ im = 0) ->
  calculate_gas_cycle p_ratio t_max t_amb k cp = Err (Raised TypeError 29).
Proof.
  intros He Hpow Hnz.
  unfold calculate_gas_cycle, gas_cycle_body, t2_rhs, t4_rhs.
  rewrite He. cbn. rewrite Hpow. cbn.
  assert (float_eq re 0 && float_eq im 0 = false) as Hb.
  { destruct (Req_dec_T re 0) as [Hr | Hr].
    - destruct (Req_dec_T im 0) as [Hi | Hi]; [tauto |].
      rewrite (float_eq_false im 0 Hi). apply andb_false_r.
    - now rewrite (float_eq_false re 0 Hr). }
  rewrite Hb. reflexivity.
Qed.

(** A negative base under an exponent strictly between 0 and 1: the power
    is complex and the call raises the [TypeError] of line 29. *)
Lemma fractional_power_raises (p_ratio t_max t_amb k cp : R) :
  p_ratio < 0 -> k <> 0 -> 0 < (k - 1) / k < 1 ->
  calculate_gas_cycle p_ratio t_max t_amb k cp = Err (Raised TypeError 29).
Proof.
  intros Hp Hk He.
  destruct (complex_pow_nonzero p_ratio ((k - 1) / k))
    as (re & im & Hc & Hnz).
  apply complex_power_raises with (e := (k - 1) / k) (re := re) (im := im).
  - apply float_truediv_ok. exact Hk.
  - rewrite float_pow_neg_fractional.
    + now rewrite Hc.
    + exact Hp.
    + apply fractional_exponent. exact He.
  - exact Hnz.
Qed.


(** ** The guard of line 29 *)

(** On a non-positive float heat input line 29 takes the [else] branch: the
    division is not evaluated, whatever [w_net] is. *)
Lemma eff_rhs_nonpositive (v_w_net : pyval) (q : R) :
  q <= 0 -> eff_rhs v_w_net (PFloat q) = Ok (PFloat 0).
Proof.
  intros Hq. unfold eff_rhs. cbn.
  now rewrite float_lt_false by exact Hq.
Qed.

(** A call that returns has passed the comparison of line 29, so [q_in],
    and with it the returned [t2], is a float. *)
Lemma returned_t2_is_float (p_ratio t_max t_amb k cp : R)
    (v_w_net v_eff v_t2 v_t4 : pyval) :
  calculate_gas_cycle p_ratio t_max t_amb k cp =
  Ok (v_w_net, v_eff, v_t2, v_t4) ->
  exists x : R, v_t2 = PFloat x.
Proof.
  unfold calculate_gas_cycle, gas_cycle_body.
  destruct (t2_rhs p_ratio t_amb k) as [v2 | ]; cbn; [| discriminate].
  destruct (t4_rhs p_ratio t_max k) as [v4 | ]; cbn; [| discriminate].
  destruct v2 as [x | re im].
  - intros H.
    destruct (eff_rhs _ _) in H; cbn in H; [| discriminate].
    injection H as _ _ <- _. now exists x.
  - unfold eff_rhs. cbn. discriminate.
Qed.

(** C2.  Whenever the call returns and the heat input
    [cp * (turbine_inlet_temp - t2)] computed from the returned [t2] is not
    positive, the returned efficiency is exactly [0], and line 29 evaluated
    to it without dividing (it yields [0] instead of raising). *)
Theorem nonpositive_heat_input_zero_efficiency
    (p_ratio t_max t_amb k cp : R) (v_w_net v_eff v_t4 : pyval) (x_t2 : R) :
  calculate_gas_cycle p_ratio t_max t_amb k cp =
  Ok (v_w_net, v_eff, PFloat x_t2, v_t4) ->
  cp * (t_max - x_t2) <= 0 ->
  v_eff = PFloat 0 /\
  eff_rhs v_w_net (PFloat (cp * (t_max - x_t2))) = Ok (PFloat 0).
Proof.
  intros Hcall Hq.
  split; [| apply eff_rhs_nonpositive; exact Hq].
  revert Hcall. unfold calculate_gas_cycle, gas_cycle_body.
  destruct (t2_rhs p_ratio t_amb k) as [v2 | ]; cbn; [| discriminate].
  destruct (t4_rhs p_ratio t_max k) as [v4 | ]; cbn; [| discriminate].
  destruct (eff_rhs _ _) as [e | ] eqn:E; cbn; [| discriminate].
  intros H. injection H as _ <- -> _.
  change (py_mul (PFloat cp) (py_sub (PFloat t_max) (PFloat x_t2)))
    with (PFloat (cp * (t_max - x_t2))) in E.
  rewrite eff_rhs_nonpositive in E by exact Hq.
  congruence.
Qed.

Lemma nonpositive_heat_input_zero_efficiency_witness :
  exists v_w_net v_eff v_t4 : pyval,
    calculate_gas_cycle 12 500 298 default_k default_cp =
    Ok (v_w_net, v_eff, PFloat (298 * Spec.temperature_ratio 12 default_k),
        v_t4) /\
    default_cp * (500 - 298 * Spec.temperature_ratio 12 default_k) <= 0 /\
    v_eff = PFloat 0 /\
    eff_rhs v_w_net
      (PFloat
         (default_cp * (500 - 298 * Spec.temperature_ratio 12 default_k))) =
    Ok (PFloat 0).
Proof.
  assert (default_cp * (500 - 298 * Spec.temperature_ratio 12 default_k)
          <= 0) as Hq.
  { pose proof temperature_ratio_12_bounds. unfold default_cp. lra. }
  do 3 eexists.
  split; [| split; [exact Hq |]].
  - apply calculate_gas_cycle_pos; unfold default_k; lra.
  - eapply (nonpositive_heat_input_zero_efficiency
              12 500 298 default_k default_cp);
      [apply calculate_gas_cycle_pos; unfold default_k; lra | exact Hq].
Defined.

(** ** The source against the specification's algorithm *)

(** C1.  Whenever the call returns, what it returns is the tuple
    [(net_work, efficiency_percent, t2, t4)] of the specification's steps
    1-9, in that order. *)
Theorem calculate_gas_cycle_refines_spec
    (p_ratio t_max t_amb k cp : R) (out : pyval * pyval * pyval * pyval) :
  calculate_gas_cycle p_ratio t_max t_amb k cp = Ok out ->
  Spec.evaluate p_ratio t_max t_amb k cp = Ok out.
Proof.
  unfold calculate_gas_cycle, gas_cycle_body, t2_rhs, t4_rhs, eff_rhs,
    Spec.evaluate.
  destruct (float_truediv (k - 1) k) as [e | ];
    cbn [bind at_line]; [| discriminate].
  destruct (float_pow p_ratio e) as [pw | ];
    cbn [bind at_line]; [| discriminate].
  destruct (py_truediv (PFloat t_max) pw) as [v4 | ];
    cbn [bind at_line]; [| discriminate].
  destruct (py_gt _ _) as [[|] | ];
    cbn [bind at_line]; [| | discriminate].
  - destruct (py_truediv _ _) as [q | ];
      cbn [bind at_line]; [| discriminate].
    intros H. injection H as <-. reflexivity.
  - intros H. injection H as <-. reflexivity.
Qed.

(** Conversely, whenever the specification's algorithm yields a tuple the
    call returns it: the two agree on every returning input. *)
Lemma spec_returns_then_call_returns
    (p_ratio t_max t_amb k cp : R) (out : pyval * pyval * pyval * pyval) :
  Spec.evaluate p_ratio t_max t_amb k cp = Ok out ->
  calculate_gas_cycle p_ratio t_max t_amb k cp = Ok out.
Proof.
  unfold calculate_gas_cycle, gas_cycle_body, t2_rhs, t4_rhs, eff_rhs,
    Spec.evaluate.
  destruct (float_truediv (k - 1) k) as [e | ];
    cbn [bind at_line]; [| discriminate].
  destruct (float_pow p_ratio e) as [pw | ];
    cbn [bind at_line]; [| discriminate].
  destruct (py_truediv (PFloat t_max) pw) as [v4 | ];
    cbn [bind at_line]; [| discriminate].
  destruct (py_gt _ _) as [[|] | ];
    cbn [bind at_line]; [| | discriminate].
  - destruct (py_truediv _ _) as [q | ];
      cbn [bind at_line]; [| discriminate].
    intros H. injection H as <-. reflexivity.
  - intros H. injection H as <-. reflexivity.
Qed.

Lemma calculate_gas_cycle_refines_spec_witness :
  exists out : pyval * pyval * pyval * pyval,
    calculate_gas_cycle 12 1350 298 default_k default_cp = Ok out /\
    Spec.evaluate 12 1350 298 default_k default_cp = Ok out.
Proof.
  eexists. split.
  - apply calculate_gas_cycle_pos; unfold default_k; lra.
  - apply (calculate_gas_cycle_refines_spec 12 1350 298 default_k default_cp).
    apply calculate_gas_cycle_pos; unfold default_k; lra.
Defined.

(** ** Further outcomes of a call *)

(** The body once the power is a nonzero float [x]: every local is a float
    and nothing raises. *)
Lemma gas_cycle_body_float_power (p_ratio t_max t_amb k cp e x : R) :
  float_truediv (k - 1) k = Ok e ->
  float_pow p_ratio e = Ok (PFloat x) ->
  x <> 0 ->
  let v_t2 := t_amb * x in
  let v_w_c := cp * (v_t2 - t_amb) in
  let v_t4 := t_max / x in
  let v_w_t := cp * (t_max - v_t4) in
  let v_w_net := v_w_t - v_w_c in
  let v_q_in := cp * (t_max - v_t2) in
  let v_eff := if float_lt 0 v_q_in then v_w_net / v_q_in * 100 else 0 in
  gas_cycle_body p_ratio t_max t_amb k cp =
  Ok (Frame (PFloat v_t2) (PFloat v_w_c) (PFloat v_t4) (PFloat v_w_t)
        (PFloat v_w_net) (PFloat v_q_in) (PFloat v_eff)).
Proof.
  intros He Hpow Hx. intros.
  unfold gas_cycle_body, t2_rhs, t4_rhs.
  rewrite He. cbn [bind at_line]. rewrite Hpow. cbn [bind at_line].
  cbn [py_mul py_truediv]. rewrite (float_truediv_ok t_max x Hx).
  cbn [bind at_line py_mul py_sub].
  fold v_t2 v_t4. fold v_w_c v_w_t. fold v_w_net v_q_in.
  unfold eff_rhs. cbn [py_gt bind].
  destruct (Rlt_dec 0 v_q_in) as [Hq | Hq].
  - subst v_eff. rewrite (float_lt_true 0 v_q_in Hq).
    cbn [py_truediv]. rewrite float_truediv_ok by (apply Rgt_not_eq; exact Hq).
    reflexivity.
  - subst v_eff. rewrite float_lt_false by lra. reflexivity.
Qed.

(** X3.  A call that returns never returns a complex number: a complex
    power makes [q_in] complex, and the comparison of line 29 rejects it
    before anything is returned. *)
Theorem returned_values_are_not_complex
    (p_ratio t_max t_amb k cp : R) (v_w_net v_eff v_t2 v_t4 : pyval) :
  calculate_gas_cycle p_ratio t_max t_amb k cp =
  Ok (v_w_net, v_eff, v_t2, v_t4) ->
  ~ is_complex v_w_net /\ ~ is_complex v_eff /\
  ~ is_complex v_t2 /\ ~ is_complex v_t4.
Proof.
  unfold calculate_gas_cycle, gas_cycle_body, t2_rhs, t4_rhs.
  destruct (float_truediv (k - 1) k) as [e | ];
    cbn [bind at_line]; [| discriminate].
  destruct (float_pow p_ratio e) as [[x | re im] | ];
    cbn [bind at_line]; [| | discriminate].
  - cbn [py_mul py_truediv].
    destruct (float_truediv t_max x) as [q4 | ];
      cbn [bind at_line]; [| discriminate].
    cbn [py_mul py_sub]. unfold eff_rhs. cbn [py_gt bind].
    destruct (float_lt 0 _).
    + cbn [py_truediv].
      destruct (float_truediv _ _) as [q | ];
        cbn [bind at_line py_mul]; [| discriminate].
      intros H. injection H as <- <- <- <-. cbn. tauto.
    + cbn [bind at_line].
      intros H. injection H as <- <- <- <-. cbn. tauto.
  - destruct (py_truediv (PFloat t_max) (PComplex re im)) as [v4 | ];
      cbn [bind at_line]; [| discriminate].
    unfold eff_rhs. cbn. discriminate.
Qed.

Lemma returned_values_are_not_complex_witness :
  exists v_w_net v_eff v_t2 v_t4 : pyval,
    calculate_gas_cycle 12 1350 298 default_k default_cp =
    Ok (v_w_net, v_eff, v_t2, v_t4) /\
    ~ is_complex v_w_net /\ ~ is_complex v_eff /\
    ~ is_complex v_t2 /\ ~ is_complex v_t4.
Proof.
  assert (0 < 12) as Hp by lra.
  assert (default_k <> 0) as Hk by (unfold default_k; lra).
  pose proof (calculate_gas_cycle_pos 12 1350 298 default_k default_cp Hp Hk)
    as H.
  cbv zeta in H.
  do 4 eexists. split; [exact H |].
  exact (returned_values_are_not_complex _ _ _ _ _ _ _ _ _ H).
Defined.

(** X4.  With [k = 0] the exponent cannot be formed: the call raises
    [ZeroDivisionError] on line 23, whatever the other arguments are. *)
Theorem zero_heat_ratio_raises (p_ratio t_max t_amb cp : R) :
  calculate_gas_cycle p_ratio t_max t_amb 0 cp =
  Err (Raised (ZeroDivisionError division_by_zero) 23).
Proof.
  unfold calculate_gas_cycle, gas_cycle_body, t2_rhs.
  rewrite float_truediv_zero. reflexivity.
Qed.

(** X5.  With [pressure_ratio = 0] and [k] from 0.001 up to, but not
    including, 1 the exponent is negative, and the power itself raises on
    line 23: zero cannot be raised to a negative power. *)
Theorem zero_pressure_ratio_negative_exponent (t_max t_amb k cp : R) :
  0.001 <= k < 1 ->
  calculate_gas_cycle 0 t_max t_amb k cp =
  Err (Raised (ZeroDivisionError zero_to_negative_power) 23).
Proof.
  intros [Hk0 Hk1].
  assert ((k - 1) / k < 0) as He.
  { apply Ropp_lt_cancel. rewrite Ropp_0.
    replace (- ((k - 1) / k)) with ((1 - k) / k) by (field; lra).
    apply Rdiv_lt_0_compat; lra. }
  unfold calculate_gas_cycle, gas_cycle_body, t2_rhs.
  rewrite float_truediv_ok by lra. cbn [bind]. unfold float_pow.
  rewrite (float_eq_false _ 0) by lra.
  rewrite float_eq_true by reflexivity.
  rewrite (float_lt_true _ 0 He). reflexivity.
Qed.

Lemma zero_pressure_ratio_negative_exponent_witness :
  calculate_gas_cycle 0 1350 298 (1 / 2) default_cp =
  Err (Raised (ZeroDivisionError zero_to_negative_power) 23).
Proof.
  apply (zero_pressure_ratio_negative_exponent 1350 298 (1 / 2) default_cp).
  lra.
Defined.

(** X6.  Every negative pressure ratio with [k] above 1 and up to [1e15]
    raises the [TypeError] of line 29: the exponent lies strictly between 0
    and 1 and the power is complex for all of them. *)
Theorem all_negative_ratios_raise (p_ratio t_max t_amb k cp : R) :
  p_ratio < 0 -> 1 < k <= 1e15 ->
  calculate_gas_cycle p_ratio t_max t_amb k cp = Err (Raised TypeError 29).
Proof.
  intros Hp [Hk _].
  apply fractional_power_raises; [exact Hp | lra |].
  split.
  - apply Rdiv_lt_0_compat; lra.
  - apply Rmult_lt_reg_r with (r := k); [lra |].
    unfold Rdiv. rewrite Rmult_assoc, Rinv_l by lra. lra.
Qed.

Lemma all_negative_ratios_raise_witness :
  calculate_gas_cycle (-12) 1350 298 default_k default_cp =
  Err (Raised TypeError 29).
Proof.
  apply (all_negative_ratios_raise (-12) 1350 298 default_k default_cp).
  - lra.
  - unfold default_k. lra.
Defined.

(** [(-1)]-th power of a negative base: the reciprocal. *)
Lemma float_pow_neg_reciprocal (iv : R) :
  iv < 0 -> float_pow iv (-1) = Ok (PFloat (/ iv)).
Proof.
  intros Hv.
  assert (Zfloor (-1) = (-1)%Z) as Hz by apply (ZfloorZ (-1)).
  assert (floor (-1) = -1) as Hfl by (unfold floor; now rewrite Hz).
  unfold float_pow.
  rewrite (float_eq_false (-1) 0) by lra.
  rewrite (float_eq_false iv 0) by lra.
  rewrite (float_lt_true iv 0 Hv).
  unfold is_odd_integer. rewrite Hfl, Hz.
  rewrite float_eq_true by reflexivity. cbn [negb andb Z.odd].
  f_equal. f_equal.
  destruct (Req_dec_T (- iv) 1) as [H1 | H1].
  - rewrite (float_eq_true _ _ H1).
    replace iv with (-1) by lra. lra.
  - rewrite (float_eq_false _ _ H1).
    replace (Rpower (- iv) (-1)) with (Rpower (- iv) (Ropp 1))
      by (f_equal; lra).
    rewrite Rpower_Ropp, Rpower_1 by lra. field. lra.
Qed.

(** X7.  A negative pressure ratio does not always raise.  With [k = 1/2]
    the exponent is [-1] and the power is a negative float: for a pressure
    ratio from -1000 to -0.001 and an ambient temperature from 1 to 10000
    the call returns, and the compressor exit temperature it returns is
    negative. *)
Theorem negative_pressure_ratio_returns (p_ratio t_max t_amb cp : R) :
  -1000 <= p_ratio <= -0.001 -> 1 <= t_amb <= 10000 ->
  exists v_w_net v_eff v_t2 v_t4 : R,
    calculate_gas_cycle p_ratio t_max t_amb (1 / 2) cp =
    Ok (PFloat v_w_net, PFloat v_eff, PFloat v_t2, PFloat v_t4) /\
    v_t2 < 0.
Proof.
  intros [Hp0 Hp1] [Ha0 Ha1].
  assert (p_ratio < 0) as Hp by lra.
  assert (float_truediv (1 / 2 - 1) (1 / 2) = Ok (-1)) as He.
  { rewrite float_truediv_ok by lra. f_equal. lra. }
  assert (/ p_ratio < 0) as Hinv by (apply Rinv_lt_0_compat; exact Hp).
  unfold calculate_gas_cycle.
  rewrite (gas_cycle_body_float_power _ _ _ _ _ (-1) (/ p_ratio) He
             (float_pow_neg_reciprocal p_ratio Hp)) by lra.
  cbn [bind w_net eff t2 t4].
  do 4 eexists. split; [reflexivity | nra].
Qed.

Lemma negative_pressure_ratio_returns_witness :
  exists v_w_net v_eff v_t2 v_t4 : R,
    calculate_gas_cycle (-5) 1350 298 (1 / 2) default_cp =
    Ok (PFloat v_w_net, PFloat v_eff, PFloat v_t2, PFloat v_t4) /\
    v_t2 < 0.
Proof.
  apply (negative_pressure_ratio_returns (-5) 1350 298 default_cp); lra.
Defined.

(** ** The call of the analysis tab *)

(** With the default [k = 1.4] the seventh power of the temperature ratio
    is the square of the pressure ratio. *)
Lemma temperature_ratio_default_pow7 (p : R) :
  0 < p -> Spec.temperature_ratio p default_k ^ 7 = p ^ 2.
Proof.
  intros Hp. unfold Spec.temperature_ratio, default_k.
  rewrite <- Rpower_pow by apply exp_pos.
  rewrite Rpower_mult.
  replace ((1.4 - 1) / 1.4 * INR 7) with (INR 2) by (simpl; lra).
  now rewrite Rpower_pow.
Qed.

(** The temperature ratio over the range of the pressure-ratio slider. *)
Lemma temperature_ratio_slider_bounds (p : R) :
  Dashboard.slider 5.0 20.0 p ->
  1.5838 < Spec.temperature_ratio p default_k < 2.3536.
Proof.
  intros [Hlo Hhi].
  assert (0 <= (default_k - 1) / default_k) as He
    by (unfold default_k; lra).
  assert (Spec.temperature_ratio 5 default_k <=
          Spec.temperature_ratio p default_k) as H5
    by (apply Rle_Rpower_l; [exact He | lra]).
  assert (Spec.temperature_ratio p default_k <=
          Spec.temperature_ratio 20 default_k) as H20
    by (apply Rle_Rpower_l; [exact He | lra]).
  pose proof (temperature_ratio_default_pow7 5) as E5.
  pose proof (temperature_ratio_default_pow7 20) as E20.
  pose proof (temperature_ratio_pos 5 default_k) as P5.
  pose proof (temperature_ratio_pos 20 default_k) as P20.
  set (r5 := Spec.temperature_ratio 5 default_k) in *.
  set (r20 := Spec.temperature_ratio 20 default_k) in *.
  assert (1.5838 < r5) as B5.
  { destruct (Rlt_dec 1.5838 r5) as [H | H]; [exact H | exfalso].
    assert (r5 ^ 7 <= 1.5838 ^ 7) by (apply pow_incr; lra).
    rewrite E5 in *; lra. }
  assert (r20 < 2.3536) as B20.
  { destruct (Rlt_dec r20 2.3536) as [H | H]; [exact H | exfalso].
    assert (2.3536 ^ 7 <= r20 ^ 7) by (apply pow_incr; lra).
    rewrite E20 in *; lra. }
  lra.
Qed.

(** X13.  Whatever the sliders are set to and whatever ambient temperature
    is typed in, the call of line 74 returns: the ranges of the widgets
    keep every raising input away from it. *)
Theorem dashboard_call_returns (c : Dashboard.controls) :
  Dashboard.in_range c ->
  returns (Dashboard.tab2_cycle c).
Proof.
  intros ([Hp5 Hp20] & _).
  unfold Dashboard.tab2_cycle.
  rewrite calculate_gas_cycle_pos by (unfold default_k; lra).
  eexists. reflexivity.
Qed.

Lemma dashboard_call_returns_witness :
  returns (Dashboard.tab2_cycle Dashboard.initial).
Proof.
  apply (dashboard_call_returns Dashboard.initial).
  unfold Dashboard.in_range, Dashboard.slider; cbn; lra.
Defined.

(** X14.  With the sliders anywhere in their ranges and an ambient
    temperature above 0 K and up to 420 K, the call of line 74 returns a
    positive net work, an efficiency strictly between 36.8 and 57.6 percent,
    and both exit temperatures strictly between the ambient and the turbine
    inlet temperature. *)
Theorem dashboard_ordinary_ambient (c : Dashboard.controls) :
  Dashboard.in_range c ->
  0 < Dashboard.t_amb c <= 420 ->
  exists v_w_net v_eff v_t2 v_t4 : R,
    Dashboard.tab2_cycle c =
    Ok (PFloat v_w_net, PFloat v_eff, PFloat v_t2, PFloat v_t4) /\
    0 < v_w_net /\
    36.8 < v_eff < 57.6 /\
    Dashboard.t_amb c < v_t2 < Dashboard.t_max c /\
    Dashboard.t_amb c < v_t4 < Dashboard.t_max c.
Proof.
  intros (Hp & [Hm1 Hm2] & _) [Ha0 Ha1].
  pose proof (temperature_ratio_slider_bounds _ Hp) as [Hlo Hhi].
  destruct Hp as [Hp5 Hp20].
  unfold Dashboard.tab2_cycle.
  rewrite calculate_gas_cycle_pos by (unfold default_k; lra). cbv zeta.
  set (r := Spec.temperature_ratio (Dashboard.p_ratio c) default_k) in *.
  set (tm := Dashboard.t_max c) in *. set (ta := Dashboard.t_amb c) in *.
  set (q := default_cp * (tm - ta * r)).
  set (w := default_cp * (tm - tm / r) - default_cp * (ta * r - ta)).
  assert (/ 2.3536 < / r) as Hi1 by (apply Rinv_lt_contravar; nra).
  assert (/ r < / 1.5838) as Hi2 by (apply Rinv_lt_contravar; nra).
  assert (ta * r < tm) as Ht2 by nra.
  assert (0 < q) as Hq by (unfold q, default_cp; nra).
  assert (w = q * (1 - / r)) as Hw by (unfold w, q; field; lra).
  rewrite (float_lt_true 0 q Hq).
  assert (w / q * 100 = (1 - / r) * 100) as ->
    by (rewrite Hw; field; lra).
  do 4 eexists. split; [reflexivity |].
  split; [rewrite Hw; nra |].
  split; [lra |].
  split; [nra |].
  unfold Rdiv. nra.
Qed.

Lemma dashboard_ordinary_ambient_witness :
  exists v_w_net v_eff v_t2 v_t4 : R,
    Dashboard.tab2_cycle Dashboard.initial =
    Ok (PFloat v_w_net, PFloat v_eff, PFloat v_t2, PFloat v_t4) /\
    0 < v_w_net /\
    36.8 < v_eff < 57.6 /\
    Dashboard.t_amb Dashboard.initial < v_t2
      < Dashboard.t_max Dashboard.initial /\
    Dashboard.t_amb Dashboard.initial < v_t4
      < Dashboard.t_max Dashboard.initial.
Proof.
  apply (dashboard_ordinary_ambient Dashboard.initial).
  - unfold Dashboard.in_range, Dashboard.slider; cbn; lra.
  - cbn; lra.
Defined.

(** X15.  The ambient temperature field is unbounded.  From 1013 K upwards,
    for every slider setting, the compressor exit temperature exceeds the
    turbine inlet temperature: the call of line 74 returns the efficiency
    [0] and a negative net work. *)
Theorem dashboard_hot_ambient (c : Dashboard.controls) :
  Dashboard.in_range c ->
  1013 <= Dashboard.t_amb c ->
  exists v_w_net v_eff v_t2 v_t4 : R,
    Dashboard.tab2_cycle c =
    Ok (PFloat v_w_net, PFloat v_eff, PFloat v_t2, PFloat v_t4) /\
    v_eff = 0 /\ v_w_net < 0 /\ Dashboard.t_max c < v_t2.
Proof.
  intros (Hp & [Hm1 Hm2] & _) Ha.
  pose proof (temperature_ratio_slider_bounds _ Hp) as [Hlo Hhi].
  destruct Hp as [Hp5 Hp20].
  unfold Dashboard.tab2_cycle.
  rewrite calculate_gas_cycle_pos by (unfold default_k; lra). cbv zeta.
  set (r := Spec.temperature_ratio (Dashboard.p_ratio c) default_k) in *.
  set (tm := Dashboard.t_max c) in *. set (ta := Dashboard.t_amb c) in *.
  set (q := default_cp * (tm - ta * r)).
  set (w := default_cp * (tm - tm / r) - default_cp * (ta * r - ta)).
  assert (/ r < / 1.5838) as Hi2 by (apply Rinv_lt_contravar; nra).
  assert (tm < ta * r) as Ht2 by nra.
  assert (q < 0) as Hq by (unfold q, default_cp; nra).
  assert (w = q * (1 - / r)) as Hw by (unfold w, q; field; lra).
  rewrite float_lt_false by lra.
  do 4 eexists. split; [reflexivity |].
  split; [reflexivity |]. split; [rewrite Hw; nra | exact Ht2].
Qed.

Lemma dashboard_hot_ambient_witness :
  exists v_w_net v_eff v_t2 v_t4 : R,
    Dashboard.tab2_cycle (Dashboard.Controls 12.0 1350 2000 50 350) =
    Ok (PFloat v_w_net, PFloat v_eff, PFloat v_t2, PFloat v_t4) /\
    v_eff = 0 /\ v_w_net < 0 /\
    Dashboard.t_max (Dashboard.Controls 12.0 1350 2000 50 350) < v_t2.
Proof.
  apply (dashboard_hot_ambient (Dashboard.Controls 12.0 1350 2000 50 350)).
  - unfold Dashboard.in_range, Dashboard.slider; cbn; lra.
  - cbn; lra.
Defined.

(** ** The two plotted curves *)

(** With at least two points [linspace] is the evenly spaced sequence
    without its last point, followed by [stop]. *)
Lemma linspace_unfold (start stop : R) (m : nat) :
  Np.linspace start stop (S (S m)) =
  map (fun i => INR i * ((stop - start) / INR (S m)) + start) (seq 0 (S m))
  ++ [stop].
Proof.
  unfold Np.linspace.
  replace (S (S m) - 1)%nat with (S m) by (simpl; reflexivity).
  change (0 <? S m)%nat with true. change (1 <? S (S m))%nat with true.
  cbv zeta iota.
  rewrite !map_map.
  rewrite (seq_S (S m) 0), map_app. cbn [map].
  rewrite removelast_last. reflexivity.
Qed.

Lemma linspace_length (start stop : R) (num : nat) :
  length (Np.linspace start stop num) = num.
Proof.
  destruct num as [| [| m]]; [reflexivity | reflexivity |].
  rewrite linspace_unfold, length_app, length_map, length_seq.
  simpl. now rewrite Nat.add_1_r.
Qed.

(** Every point by its index, the last one included. *)
Lemma linspace_nth (start stop d : R) (m i : nat) :
  (i < S (S m))%nat ->
  nth i (Np.linspace start stop (S (S m))) d =
  start + INR i * ((stop - start) / INR (S m)).
Proof.
  intros Hi. rewrite linspace_unfold.
  assert (INR (S m) <> 0) as Hm by (apply not_0_INR; discriminate).
  destruct (Nat.eq_dec i (S m)) as [-> | Hne].
  - rewrite app_nth2 by (rewrite length_map, length_seq; apply Nat.le_refl).
    rewrite length_map, length_seq, Nat.sub_diag. cbn [nth].
    field. exact Hm.
  - assert (i < S m)%nat as Hlt by lia.
    rewrite app_nth1 by (rewrite length_map, length_seq; exact Hlt).
    set (f := fun j : nat => INR j * ((stop - start) / INR (S m)) + start).
    rewrite (nth_indep _ d (f 0%nat))
      by (rewrite length_map, length_seq; exact Hlt).
    rewrite map_nth, seq_nth by exact Hlt.
    rewrite Nat.add_0_l. unfold f. ring.
Qed.

(** Every point is at some index below [num]. *)
Lemma linspace_In (start stop x : R) (m : nat) :
  In x (Np.linspace start stop (S (S m))) ->
  exists i : nat,
    (i <= S m)%nat /\ x = start + INR i * ((stop - start) / INR (S m)).
Proof.
  intros Hx. apply (In_nth _ _ 0) in Hx. destruct Hx as (i & Hi & <-).
  rewrite linspace_length in Hi.
  exists i. split; [apply Nat.lt_succ_r; exact Hi |].
  apply linspace_nth. exact Hi.
Qed.

(** The points of an ascending [linspace] stay between its two ends. *)
Lemma linspace_bounds (start stop x : R) (m : nat) :
  start <= stop ->
  In x (Np.linspace start stop (S (S m))) ->
  start <= x <= stop.
Proof.
  intros Hle Hx.
  destruct (linspace_In _ _ _ _ Hx) as (i & Hi & ->).
  assert (0 < INR (S m)) as Hm by (apply lt_0_INR, Nat.lt_0_succ).
  assert (0 <= INR i <= INR (S m)) as [Hi0 Hi1]
    by (split; [apply pos_INR | apply le_INR; exact Hi]).
  set (n := INR (S m)) in *. set (j := INR i) in *.
  assert (0 <= (stop - start) / n) as Hstep
    by (apply Rmult_le_pos; [lra | apply Rlt_le, Rinv_0_lt_compat; exact Hm]).
  assert (n * ((stop - start) / n) = stop - start) as Hn by (field; lra).
  split; nra.
Qed.

Lemma INR_99 : INR 99 = 99.
Proof. rewrite INR_IZR_INZ. reflexivity. Qed.

(** A point of a curve obtained by mapping over [linspace]. *)
Lemma mapped_linspace_nth (g : R -> R) (start stop d : R) (m i : nat) :
  (i < S (S m))%nat ->
  nth i (map g (Np.linspace start stop (S (S m)))) d =
  g (start + INR i * ((stop - start) / INR (S m))).
Proof.
  intros Hi.
  rewrite (nth_indep _ d (g 0))
    by (rewrite length_map, linspace_length; exact Hi).
  rewrite map_nth. f_equal. apply linspace_nth. exact Hi.
Qed.

(** Point [i] of the T-H chart. *)
Lemma th_curve_nth (v_t2 v_t_max d : R) (i : nat) :
  (i < 100)%nat ->
  nth i (Dashboard.th_curve v_t2 v_t_max) d =
  v_t2 + (v_t_max - v_t2) * (INR i / 99).
Proof.
  intros Hi. unfold Dashboard.th_curve.
  rewrite (mapped_linspace_nth _ 0 100 d 98 i Hi), INR_99.
  unfold Dashboard.th_temperature. field.
Qed.


(** X17.  For sliders in range and an ambient temperature above 0 K and up
    to 420 K, the T-H chart drawn from the call's [t2] rises strictly from
    point to point. *)
Theorem dashboard_th_curve_rises (c : Dashboard.controls) (d : R) :
  Dashboard.in_range c ->
  0 < Dashboard.t_amb c <= 420 ->
  exists v_w_net v_eff v_t2 v_t4 : R,
    Dashboard.tab2_cycle c =
    Ok (PFloat v_w_net, PFloat v_eff, PFloat v_t2, PFloat v_t4) /\
    forall i j : nat, (i < j)%nat -> (j < 100)%nat ->
      nth i (Dashboard.th_curve v_t2 (Dashboard.t_max c)) d <
      nth j (Dashboard.th_curve v_t2 (Dashboard.t_max c)) d.
Proof.
  intros (Hp & [Hm1 Hm2] & _) [Ha0 Ha1].
  pose proof (temperature_ratio_slider_bounds _ Hp) as [Hlo Hhi].
  destruct Hp as [Hp5 Hp20].
  unfold Dashboard.tab2_cycle.
  rewrite calculate_gas_cycle_pos by (unfold default_k; lra). cbv zeta.
  set (r := Spec.temperature_ratio (Dashboard.p_ratio c) default_k) in *.
  set (tm := Dashboard.t_max c) in *. set (ta := Dashboard.t_amb c) in *.
  assert (ta * r < tm) as Ht2 by nra.
  do 4 eexists. split; [reflexivity |].
  intros i j Hij Hj.
  rewrite !th_curve_nth by lia.
  assert (INR i < INR j) by (apply lt_INR; exact Hij).
  nra.
Qed.

Lemma dashboard_th_curve_rises_witness :
  exists v_w_net v_eff v_t2 v_t4 : R,
    Dashboard.tab2_cycle Dashboard.initial =
    Ok (PFloat v_w_net, PFloat v_eff, PFloat v_t2, PFloat v_t4) /\
    forall i j : nat, (i < j)%nat -> (j < 100)%nat ->
      nth i (Dashboard.th_curve v_t2 (Dashboard.t_max Dashboard.initial)) 0 <
      nth j (Dashboard.th_curve v_t2 (Dashboard.t_max Dashboard.initial)) 0.
Proof.
  apply (dashboard_th_curve_rises Dashboard.initial 0).
  - unfold Dashboard.in_range, Dashboard.slider; cbn; lra.
  - cbn; lra.
Defined.

(** X18.  The enthalpy array of the h-s diagram has 100 points, starts at
    [2500 + 0.2 * t_steam], ends at [2625 + 0.2 * t_steam], never leaves
    the interval from [2500 + 0.2 * t_steam] to [2640.625 + 0.2 * t_steam],
    and is not monotone: point 74 lies above the last point. *)
Theorem hs_curve_shape (v_t_steam d : R) :
  length (Dashboard.hs_curve v_t_steam) = 100%nat /\
  nth 0 (Dashboard.hs_curve v_t_steam) d = 2500 + 0.2 * v_t_steam /\
  nth 99 (Dashboard.hs_curve v_t_steam) d = 2625 + 0.2 * v_t_steam /\
  (forall x : R, In x (Dashboard.hs_curve v_t_steam) ->
     2500 + 0.2 * v_t_steam <= x <= 2640.625 + 0.2 * v_t_steam) /\
  nth 99 (Dashboard.hs_curve v_t_steam) d <
  nth 74 (Dashboard.hs_curve v_t_steam) d.
Proof.
  assert (forall i : nat, (i < 100)%nat ->
            nth i (Dashboard.hs_curve v_t_steam) d =
            Dashboard.hs_enthalpy v_t_steam (5.5 + INR i * (2.5 / 99)))
    as Hnth.
  { intros i Hi. unfold Dashboard.hs_curve.
    rewrite (mapped_linspace_nth _ 5.5 8.0 d 98 i Hi), INR_99.
    f_equal. lra. }
  assert (INR 74 = 74) as E74 by (rewrite INR_IZR_INZ; reflexivity).
  split; [unfold Dashboard.hs_curve;
          now rewrite length_map, linspace_length |].
  split; [rewrite Hnth by lia; unfold Dashboard.hs_enthalpy;
          simpl INR; lra |].
  split; [rewrite Hnth by lia; rewrite INR_99;
          unfold Dashboard.hs_enthalpy; lra |].
  split.
  - intros x Hx. unfold Dashboard.hs_curve in Hx.
    apply in_map_iff in Hx. destruct Hx as (s & <- & Hs).
    apply linspace_bounds in Hs; [| lra].
    unfold Dashboard.hs_enthalpy.
    set (u := s - 5.5). assert (0 <= u <= 2.5) as [H0 H1] by (unfold u; lra).
    replace (u ^ 2) with (u * u) by ring.
    assert (0 <= u * (150 - 40 * u)) by (apply Rmult_le_pos; lra).
    assert (0 <= (u - 1.875) * (u - 1.875)) by (apply Rle_0_sqr).
    split; lra.
  - rewrite !Hnth by lia. rewrite INR_99, E74.
    unfold Dashboard.hs_enthalpy. lra.
Qed.

(** ** Below a pressure ratio of one *)

(** X19.  The guard of line 29 tests the heat input only.  With the default
    [k] and [cp], a pressure ratio above 0 and up to 0.9, a turbine inlet
    temperature from 1000 to 1600 and an ambient temperature above 0 and up
    to 420, the heat input is positive and the call returns a negative net
    work and an efficiency below -3 percent. *)
Theorem expansion_gives_negative_efficiency (p_ratio t_max t_amb : R) :
  0 < p_ratio <= 0.9 -> 1000 <= t_max <= 1600 -> 0 < t_amb <= 420 ->
  exists v_w_net v_eff v_t2 v_t4 : R,
    calculate_gas_cycle p_ratio t_max t_amb default_k default_cp =
    Ok (PFloat v_w_net, PFloat v_eff, PFloat v_t2, PFloat v_t4) /\
    v_w_net < 0 /\ v_eff < -3.
Proof.
  intros [Hp0 Hp1] [Hm0 Hm1] [Ha0 Ha1].
  pose proof (temperature_ratio_default_pow7 p_ratio Hp0) as E7.
  pose proof (temperature_ratio_pos p_ratio default_k) as Hr0.
  rewrite calculate_gas_cycle_pos by (unfold default_k; lra). cbv zeta.
  set (r := Spec.temperature_ratio p_ratio default_k) in *.
  assert (p_ratio ^ 2 <= 0.81) as Hsq by (simpl; nra).
  assert (r < 0.9704) as Hr1.
  { destruct (Rlt_dec r 0.9704) as [H | H]; [exact H | exfalso].
    assert (0.9704 ^ 7 <= r ^ 7) by (apply pow_incr; lra). lra. }
  assert (/ 0.9704 < / r) as Hi by (apply Rinv_lt_contravar; nra).
  set (q := default_cp * (t_max - t_amb * r)).
  set (w := default_cp * (t_max - t_max / r)
            - default_cp * (t_amb * r - t_amb)).
  assert (0 < q) as Hq by (unfold q, default_cp; nra).
  assert (w = q * (1 - / r)) as Hw by (unfold w, q; field; lra).
  rewrite (float_lt_true 0 q Hq).
  assert (w / q * 100 = (1 - / r) * 100) as ->
    by (rewrite Hw; field; lra).
  do 4 eexists. split; [reflexivity |].
  split; [rewrite Hw; nra | lra].
Qed.

Lemma expansion_gives_negative_efficiency_witness :
  exists v_w_net v_eff v_t2 v_t4 : R,
    calculate_gas_cycle (1 / 2) 1350 298 default_k default_cp =
    Ok (PFloat v_w_net, PFloat v_eff, PFloat v_t2, PFloat v_t4) /\
    v_w_net < 0 /\ v_eff < -3.
Proof.
  apply (expansion_gives_negative_efficiency (1 / 2) 1350 298); lra.
Defined.

